(** * react-native-dynamic-activities: the C++ <-> Swift bridging adapter

    A shallow embedding of the two generated headers

      - nitrogen/generated/shared/c++/HybridDynamicActivitiesSpec.hpp
      - nitrogen/generated/ios/c++/HybridDynamicActivitiesSpecSwift.hpp

    and the properties of the adapter [HybridDynamicActivitiesSpecSwift]. *)

From Stdlib Require Import ZArith NArith Lia.
From Stdlib Require Import Floats.SpecFloat Floats.PrimFloat Floats.FloatOps.
From stdpp Require Import base strings gmap.

Local Open Scope Z_scope.

(** ** [double]: IEEE-754 binary64

  A C++ [double] is a binary64 value.  It is represented by the Standard
  Library's specification of IEEE-754 floats, [spec_float], at precision 53
  and maximal exponent 1024. *)
Module Double.

Definition prec : Z := 53.
Definition emax : Z := 1024.

Definition double : Type := spec_float.

(** The values of [spec_float] that are binary64 numbers. *)
Definition is_float64 (x : double) : bool := valid_binary prec emax x.

(** [std::isfinite]. *)
Definition is_finite (x : double) : bool :=
  match x with
  | S754_zero _ | S754_finite _ _ _ => true
  | S754_infinity _ | S754_nan => false
  end.

(** [std::isnan]. *)
Definition is_nan (x : double) : bool :=
  match x with
  | S754_nan => true
  | _ => false
  end.

(** [a + b], rounded to nearest, ties to even. *)
Definition add (a b : double) : double := SFadd prec emax a b.

(** [a == b]: IEEE-754 equality ([-0.0 == 0.0], and NaN equals nothing). *)
Definition eqb (a b : double) : bool := SFeqb a b.

(** A decimal literal, read as the nearest binary64 number. *)
Definition of_literal (f : float) : double := Prim2SF f.

(** The literals of the spec. *)
Definition zero : double := S754_zero false.
Definition lit_2_5 : double := S754_finite false 5629499534213120 (-51).
Definition lit_3_5 : double := S754_finite false 7881299347898368 (-51).
Definition lit_6_0 : double := S754_finite false 6755399441055744 (-50).
Definition infinity : double := S754_infinity false.
Definition neg_infinity : double := S754_infinity true.
Definition nan : double := S754_nan.

End Double.

Abbreviation double := Double.double.

(** ** [size_t]

  An unsigned integer: the adapter never computes with it, it only hands
  a value on. *)
Definition size_t : Type := N.

(** ** NitroModules: [Result<T>] and the outcome of a C++ call *)
Module Nitro.
Section WithException.

(** [std::exception_ptr]: a handle on an exception object. *)
Variable exception_ptr : Type.

(** Modelled from the spec: [Result<T>], declared in NitroModules, which is
    not among the sources.  "A result wrapper that may carry either a
    computed value or an error condition", "a tagged result type
    (value-or-error)". *)
Inductive Result (T : Type) : Type :=
| withValue (v : T)
| withError (e : exception_ptr).

Definition hasError {T} (r : Result T) : bool :=
  match r with
  | withValue _ _ => false
  | withError _ _ => true
  end.

(** [error()] of a result that holds a value is not defined: [None]. *)
Definition error {T} (r : Result T) : option exception_ptr :=
  match r with
  | withValue _ _ => None
  | withError _ e => Some e
  end.

(** [value()] of a result that holds an error is not defined: [None]. *)
Definition value {T} (r : Result T) : option T :=
  match r with
  | withValue _ v => Some v
  | withError _ _ => None
  end.

(** How a C++ call ends: it returns a value, it throws, or its behaviour is
    undefined (an accessor used outside its precondition). *)
Inductive outcome (A : Type) : Type :=
| Returned (a : A)
| Thrown (e : exception_ptr)
| Undefined.

Definition is_thrown {A} (o : outcome A) : bool :=
  match o with
  | Thrown _ _ => true
  | _ => false
  end.

(** A member function of an object of type [Self], running against the
    state [W] of the foreign side: it may read and write [this], and it
    ends in an [outcome].  An exception leaves the state as it is at the
    throw. *)
Definition Method (Self W A : Type) : Type :=
  Self * W -> outcome A * (Self * W).

Definition ret {Self W A} (a : A) : Method Self W A :=
  fun s => (Returned _ a, s).

Definition bind {Self W A B}
    (m : Method Self W A) (k : A -> Method Self W B) : Method Self W B :=
  fun s =>
    match m s with
    | (Returned _ a, s') => k a s'
    | (Thrown _ e, s') => (Thrown _ e, s')
    | (Undefined _, s') => (Undefined _, s')
    end.

(** [std::rethrow_exception(e)]: never returns. *)
Definition rethrow_exception {Self W A} (e : exception_ptr) : Method Self W A :=
  fun s => (Thrown _ e, s).

(** The result of an accessor that has a precondition. *)
Definition defined {Self W A} (o : option A) : Method Self W A :=
  fun s =>
    match o with
    | Some a => (Returned _ a, s)
    | None => (Undefined _, s)
    end.

End WithException.

Arguments withValue {exception_ptr T} v.
Arguments withError {exception_ptr T} e.
Arguments Returned {exception_ptr A} a.
Arguments Thrown {exception_ptr A} e.
Arguments Undefined {exception_ptr A}.
Arguments hasError {exception_ptr T} r.
Arguments error {exception_ptr T} r.
Arguments value {exception_ptr T} r.
Arguments is_thrown {exception_ptr A} o.
Arguments ret {exception_ptr Self W A} a.
Arguments bind {exception_ptr Self W A B} m k.
Arguments rethrow_exception {exception_ptr Self W A} e.
Arguments defined {exception_ptr Self W A} o.

End Nitro.

Import Nitro.

Declare Scope method_scope.
Delimit Scope method_scope with method.
Notation "x <- m ;; k" := (bind m (fun x => k))
  (at level 100, m at next level, right associativity) : method_scope.

(** ** The umbrella header: the foreign (Swift) side

    [DynamicActivities-Swift-Cxx-Umbrella.hpp] is not among the sources.  What
    the adapter uses of it is taken as an interface: the class
    [DynamicActivities::HybridDynamicActivitiesSpec_cxx], a C++ handle on the
    Swift object, with its two member functions.  The Swift object lives on
    the Swift side, whose state is [SwiftWorld]: a call through the handle may
    change that state, and leaves the handle as it is. *)
Class Umbrella : Type := {
  exception_ptr : Type;
  SwiftWorld : Type;
  HybridDynamicActivitiesSpec_cxx : Type;
  (** [sum(double num1, double num2)], which yields a [Result<double>] *)
  cxx_sum : HybridDynamicActivitiesSpec_cxx -> double -> double ->
            SwiftWorld -> Result exception_ptr double * SwiftWorld;
  (** [getMemorySize()] *)
  cxx_getMemorySize : HybridDynamicActivitiesSpec_cxx ->
                      SwiftWorld -> size_t * SwiftWorld
}.

(** ** HybridDynamicActivitiesSpec.hpp: the abstract spec *)
Module HybridDynamicActivitiesSpec.

(** [static constexpr auto TAG = "DynamicActivities"] *)
Definition TAG : string := "DynamicActivities".

(** The abstract class: the pure virtual [sum], and
    [getExternalMemorySize], which it inherits from [HybridObject]. *)
Class t `{U : Umbrella} (Self : Type) : Type := {
  sum : double -> double -> Method exception_ptr Self SwiftWorld double;
  getExternalMemorySize : Method exception_ptr Self SwiftWorld size_t
}.

End HybridDynamicActivitiesSpec.

(** ** HybridDynamicActivitiesSpecSwift.hpp: the adapter *)
Module HybridDynamicActivitiesSpecSwift.
Section WithUmbrella.
Context `{U : Umbrella}.

Local Open Scope method_scope.

(** The data members: the name handed to [HybridObject]'s constructor, and
    the private [_swiftPart], held by value. *)
Record t : Type := {
  name : string;
  _swiftPart : HybridDynamicActivitiesSpec_cxx
}.

(** A reference to a sub-object of [O]: how to read it and how to assign
    through it. *)
Record Ref (O A : Type) : Type := {
  ref_get : O -> A;
  ref_set : A -> O -> O
}.

(** The constructor: [HybridObject(HybridDynamicActivitiesSpec::TAG),
    _swiftPart(swiftPart)].  The argument, read through the const reference,
    is copied into the member. *)
Definition make (swiftPart : HybridDynamicActivitiesSpec_cxx) : t :=
  {| name := HybridDynamicActivitiesSpec.TAG; _swiftPart := swiftPart |}.

(** A call [_swiftPart.f(...)] of a member function of the foreign class. *)
Definition on_swiftPart {A}
    (f : HybridDynamicActivitiesSpec_cxx -> SwiftWorld -> A * SwiftWorld)
  : Method exception_ptr t SwiftWorld A :=
  fun '(this, w) =>
    let '(a, w') := f (_swiftPart this) w in (Returned a, (this, w')).

(** [getSwiftPart() noexcept]: [return _swiftPart;], by non-const
    reference. *)
Definition getSwiftPart : Ref t HybridDynamicActivitiesSpec_cxx :=
  {| ref_get := _swiftPart;
     ref_set := fun v this => {| name := name this; _swiftPart := v |} |}.

(** [getExternalMemorySize() noexcept override]:
    [return _swiftPart.getMemorySize();] *)
Definition getExternalMemorySize : Method exception_ptr t SwiftWorld size_t :=
  on_swiftPart cxx_getMemorySize.

(** [sum(double num1, double num2) override] *)
Definition sum (num1 num2 : double) : Method exception_ptr t SwiftWorld double :=
  __result <- on_swiftPart (fun s => cxx_sum s num1 num2) ;;
  if hasError __result then
    e <- defined (error __result) ;;
    rethrow_exception e
  else
    __value <- defined (value __result) ;;
    ret __value.

(** The adapter derives from the abstract spec and overrides its two virtual
    member functions. *)
#[global] Instance override : HybridDynamicActivitiesSpec.t t :=
  {| HybridDynamicActivitiesSpec.sum := sum;
     HybridDynamicActivitiesSpec.getExternalMemorySize := getExternalMemorySize |}.

End WithUmbrella.

Arguments ref_get {O A} r o.
Arguments ref_set {O A} r a o.

End HybridDynamicActivitiesSpecSwift.

Module Adapter := HybridDynamicActivitiesSpecSwift.

(** ** Callers of the spec

    The capability is used through the abstract spec: a caller issues the two
    operations any number of times, in any order, and goes on after a [sum]
    that threw. *)
Section Callers.
Context `{U : Umbrella}.

Inductive call : Type :=
| call_sum (num1 num2 : double)
| call_getExternalMemorySize.

Inductive reply : Type :=
| sum_reply (o : outcome exception_ptr double)
| size_reply (o : outcome exception_ptr size_t).

Definition step {Self} `{!HybridDynamicActivitiesSpec.t Self}
    (c : call) (s : Self * SwiftWorld) : reply * (Self * SwiftWorld) :=
  match c with
  | call_sum num1 num2 =>
      let '(o, s') := HybridDynamicActivitiesSpec.sum num1 num2 s in
      (sum_reply o, s')
  | call_getExternalMemorySize =>
      let '(o, s') := HybridDynamicActivitiesSpec.getExternalMemorySize s in
      (size_reply o, s')
  end.

Fixpoint run {Self} `{!HybridDynamicActivitiesSpec.t Self}
    (cs : list call) (s : Self * SwiftWorld)
  : list reply * (Self * SwiftWorld) :=
  match cs with
  | [] => ([], s)
  | c :: cs' =>
      let '(r, s') := step c s in
      let '(rs, s'') := run cs' s' in
      (r :: rs, s'')
  end.

(** ** Object lifetimes

    The C++ objects a program holds: the instances of the foreign class that
    callers own, and the adapters.  An adapter's [_swiftPart] is a sub-object
    of the adapter: it comes to life and dies with it. *)
Record Memory : Type := {
  cxx_objects : gmap positive HybridDynamicActivitiesSpec_cxx;
  adapters : gmap positive HybridDynamicActivitiesSpecSwift.t
}.

(** The number of live instances of the foreign class: the callers' ones and
    the one inside each adapter. *)
Definition live_instances (m : Memory) : nat :=
  size (cxx_objects m) + size (adapters m).

(** [new HybridDynamicActivitiesSpecSwift(swiftPart)], with [swiftPart] a
    reference to a caller's instance.  A dangling reference gives [None]. *)
Definition construct (swiftPart : positive) (m : Memory)
  : option (positive * Memory) :=
  match cxx_objects m !! swiftPart with
  | None => None
  | Some s =>
      let this := fresh (dom (adapters m)) in
      Some (this,
            {| cxx_objects := cxx_objects m;
               adapters := <[this := HybridDynamicActivitiesSpecSwift.make s]>
                             (adapters m) |})
  end.

(** The destructor, implicitly defined: it destroys the members and the
    bases.  Destroying what is not a live adapter gives [None]. *)
Definition destroy (this : positive) (m : Memory) : option Memory :=
  match adapters m !! this with
  | None => None
  | Some _ =>
      Some {| cxx_objects := cxx_objects m;
              adapters := delete this (adapters m) |}
  end.

(** A member function called on the adapter at address [this]. *)
Definition invoke {A} (this : positive)
    (f : Method exception_ptr HybridDynamicActivitiesSpecSwift.t SwiftWorld A)
    (m : Memory) (w : SwiftWorld)
  : outcome exception_ptr A * (Memory * SwiftWorld) :=
  match adapters m !! this with
  | None => (Undefined, (m, w))
  | Some a =>
      let '(o, (a', w')) := f (a, w) in
      (o, ({| cxx_objects := cxx_objects m;
              adapters := <[this := a']> (adapters m) |}, w'))
  end.

(** What a caller may do to its own instance after it built an adapter from
    it: assign to it, or destroy it. *)
Definition assign (p : positive) (v : HybridDynamicActivitiesSpec_cxx)
    (m : Memory) : Memory :=
  {| cxx_objects := <[p := v]> (cxx_objects m); adapters := adapters m |}.

Definition release (p : positive) (m : Memory) : Memory :=
  {| cxx_objects := delete p (cxx_objects m); adapters := adapters m |}.

End Callers.

(** ** Foreign sides *)

(** Modelled from the spec: the Swift implementation of the capability (the
    class behind [HybridDynamicActivitiesSpec_cxx]), which is not among the
    sources.  Spec 4.1: [sum(num1: float64, num2: float64) -> float64]
    "returns the arithmetic sum; no side effects"; "State machine: none --
    stateless capability"; [getExternalMemorySize() -> size] "reports bytes of
    memory owned outside the adapter's own footprint".  The Swift side has no
    state, a handle is known by the size its object reports, and an error
    value is a message. *)
Definition SwiftImplementation : Umbrella :=
  {| exception_ptr := string;
     SwiftWorld := unit;
     HybridDynamicActivitiesSpec_cxx := size_t;
     cxx_sum := fun _ num1 num2 w => (withValue (Double.add num1 num2), w);
     cxx_getMemorySize := fun h w => (h, w) |}.

(** A foreign side with state and with a failure, to exercise the adapter: it
    records the arguments of every [sum] it receives, refuses a sum that is
    not finite, and reports as its size the number of calls recorded. *)
Definition CheckedSide : Umbrella :=
  {| exception_ptr := string;
     SwiftWorld := list (double * double);
     HybridDynamicActivitiesSpec_cxx := unit;
     cxx_sum := fun _ num1 num2 w =>
       (if Double.is_finite (Double.add num1 num2)
        then withValue (Double.add num1 num2)
        else withError "sum is not finite"%string,
        (num1, num2) :: w);
     cxx_getMemorySize := fun _ w => (N.of_nat (length w), w) |}.

(** The adapters built on these two foreign sides. *)
Definition swift_adapter (size : size_t) : Adapter.t (U := SwiftImplementation) :=
  Adapter.make (U := SwiftImplementation) size.

Definition checked_adapter : Adapter.t (U := CheckedSide) :=
  Adapter.make (U := CheckedSide) tt.

(** One caller's instance, at address 5, on the Swift implementation. *)
Definition one_instance : Memory (U := SwiftImplementation) :=
  {| cxx_objects := {[ 5%positive := 16%N ]}; adapters := ∅ |}.

(** The same memory, once an adapter was built from that instance. *)
Definition one_adapter : Memory (U := SwiftImplementation) :=
  {| cxx_objects := {[ 5%positive := 16%N ]};
     adapters := {[ 1%positive := swift_adapter 16%N ]} |}.

(** What the foreign call gave, in the calling convention of C++. *)
Definition surfaced `{U : Umbrella} {T} (r : Result exception_ptr T)
  : outcome exception_ptr T :=
  match r with
  | withValue v => Returned v
  | withError e => Thrown e
  end.

(** ** Programs over the foreign class and its adapters *)
Section Programs.
Context `{U : Umbrella}.

(** The same calls made on an instance of the foreign class itself, with no
    adapter in between: what the foreign [sum] gave is surfaced, what
    [getMemorySize] gave is returned. *)
Definition direct_step (s : HybridDynamicActivitiesSpec_cxx)
    (c : call) (w : SwiftWorld) : reply * SwiftWorld :=
  match c with
  | call_sum num1 num2 =>
      let '(r, w') := cxx_sum s num1 num2 w in (sum_reply (surfaced r), w')
  | call_getExternalMemorySize =>
      let '(n, w') := cxx_getMemorySize s w in (size_reply (Returned n), w')
  end.

Fixpoint direct_run (s : HybridDynamicActivitiesSpec_cxx)
    (cs : list call) (w : SwiftWorld) : list reply * SwiftWorld :=
  match cs with
  | [] => ([], w)
  | c :: cs' =>
      let '(r, w') := direct_step s c w in
      let '(rs, w'') := direct_run s cs' w' in
      (r :: rs, w'')
  end.

(** [getSwiftPart() = v] on the adapter at address [this]: an assignment
    through the reference that [getSwiftPart] returns. *)
Definition write_swiftPart (this : positive)
    (v : HybridDynamicActivitiesSpec_cxx) (m : Memory) : option Memory :=
  match adapters m !! this with
  | None => None
  | Some a =>
      Some {| cxx_objects := cxx_objects m;
              adapters := <[this := Adapter.ref_set Adapter.getSwiftPart v a]>
                            (adapters m) |}
  end.

(** One of the two operations of the spec, called on the adapter at address
    [this]; a [sum] that throws is caught by the caller. *)
Definition call_adapter (this : positive) (c : call)
    (m : Memory) (w : SwiftWorld) : option (Memory * SwiftWorld) :=
  match c with
  | call_sum num1 num2 =>
      match invoke this (Adapter.sum num1 num2) m w with
      | (Undefined, _) => None
      | (_, s) => Some s
      end
  | call_getExternalMemorySize =>
      match invoke this Adapter.getExternalMemorySize m w with
      | (Undefined, _) => None
      | (_, s) => Some s
      end
  end.

(** What a program does, step by step, with the objects it holds. *)
Inductive action : Type :=
| new_instance (v : HybridDynamicActivitiesSpec_cxx)
| assign_instance (p : positive) (v : HybridDynamicActivitiesSpec_cxx)
| release_instance (p : positive)
| new_adapter (swiftPart : positive)
| delete_adapter (this : positive)
| call_on (this : positive) (c : call)
| assign_swiftPart (this : positive) (v : HybridDynamicActivitiesSpec_cxx).

(** A step on an object that is not live has no defined behaviour:
    [None]. *)
Definition exec (a : action) (s : Memory * SwiftWorld)
  : option (Memory * SwiftWorld) :=
  let '(m, w) := s in
  match a with
  | new_instance v =>
      Some ({| cxx_objects := <[fresh (dom (cxx_objects m)) := v]>
                                (cxx_objects m);
               adapters := adapters m |}, w)
  | assign_instance p v =>
      match cxx_objects m !! p with
      | None => None
      | Some _ => Some (assign p v m, w)
      end
  | release_instance p =>
      match cxx_objects m !! p with
      | None => None
      | Some _ => Some (release p m, w)
      end
  | new_adapter swiftPart =>
      match construct swiftPart m with
      | None => None
      | Some (_, m') => Some (m', w)
      end
  | delete_adapter this =>
      match destroy this m with
      | None => None
      | Some m' => Some (m', w)
      end
  | call_on this c => call_adapter this c m w
  | assign_swiftPart this v =>
      match write_swiftPart this v m with
      | None => None
      | Some m' => Some (m', w)
      end
  end.

Fixpoint execs (acts : list action) (s : Memory * SwiftWorld)
  : option (Memory * SwiftWorld) :=
  match acts with
  | [] => Some s
  | a :: acts' =>
      match exec a s with
      | None => None
      | Some s' => execs acts' s'
      end
  end.

(** A program starts with no object. *)
Definition no_objects : Memory := {| cxx_objects := ∅; adapters := ∅ |}.

(** Every adapter in memory bears the tag of the spec. *)
Definition well_named (m : Memory) : Prop :=
  forall (this : positive) (a : Adapter.t),
    adapters m !! this = Some a ->
    Adapter.name a = HybridDynamicActivitiesSpec.TAG.

End Programs.

(** * Properties *)

(** ** Binary64 addition *)
Section DoubleFacts.

Lemma shr_1_nonneg (mrs : shr_record) :
  0 <= shr_m mrs -> 0 <= shr_m (shr_1 mrs).
Proof.
  destruct mrs as [m r s]; simpl.
  destruct m as [|p|p]; [easy | | lia].
  destruct p; simpl; lia.
Qed.

Lemma iter_pos_shr_1_nonneg (p : positive) (mrs : shr_record) :
  0 <= shr_m mrs -> 0 <= shr_m (SpecFloat.iter_pos shr_1 p mrs).
Proof.
  revert mrs.
  induction p as [p IH|p IH|]; intros mrs H; simpl.
  - apply IH, IH, shr_1_nonneg, H.
  - apply IH, IH, H.
  - apply shr_1_nonneg, H.
Qed.

Lemma shr_fexp_nonneg (m e : Z) (l : location) :
  0 <= m -> 0 <= shr_m (fst (shr_fexp Double.prec Double.emax m e l)).
Proof.
  intros H. unfold shr_fexp, shr.
  assert (H0 : 0 <= shr_m (shr_record_of_loc m l)).
  { destruct l as [|[]]; exact H. }
  destruct (fexp _ _ _ - e); simpl; auto.
  apply iter_pos_shr_1_nonneg, H0.
Qed.

Lemma round_nearest_even_nonneg (m : Z) (l : location) :
  0 <= m -> 0 <= round_nearest_even m l.
Proof.
  intros H. destruct l as [|[]]; simpl; try lia.
  destruct (Z.even m); lia.
Qed.

Lemma binary_round_aux_not_nan (sx : bool) (mx ex : Z) (lx : location) :
  0 <= mx ->
  Double.is_nan (binary_round_aux Double.prec Double.emax sx mx ex lx) = false.
Proof.
  intros H. unfold binary_round_aux.
  pose proof (shr_fexp_nonneg mx ex lx H) as H1.
  destruct (shr_fexp Double.prec Double.emax mx ex lx) as [mrs' e'].
  simpl in H1.
  pose proof (shr_fexp_nonneg _ e' loc_Exact
                (round_nearest_even_nonneg _ (loc_of_shr_record mrs') H1)) as H2.
  destruct (shr_fexp Double.prec Double.emax _ e' loc_Exact) as [mrs'' e''].
  simpl in H2.
  destruct (shr_m mrs'') as [|m|m]; [reflexivity | | lia].
  destruct (e'' <=? _); reflexivity.
Qed.

Lemma binary_normalize_not_nan (m e : Z) (szero : bool) :
  Double.is_nan (binary_normalize Double.prec Double.emax m e szero) = false.
Proof.
  unfold binary_normalize, binary_round.
  destruct m as [|p|p]; [reflexivity | |];
    destruct (shl_align _ _ _) as [mz ez];
    apply binary_round_aux_not_nan; lia.
Qed.

(** Adding two finite numbers never gives NaN (it may overflow to an
    infinity). *)
Lemma add_finite_not_nan (a b : double) :
  Double.is_finite a = true -> Double.is_finite b = true ->
  Double.is_nan (Double.add a b) = false.
Proof.
  intros Ha Hb.
  destruct a as [sa|sa| |sa ma ea]; try discriminate Ha;
    destruct b as [sb|sb| |sb mb eb]; try discriminate Hb; simpl.
  - destruct sa, sb; reflexivity.
  - reflexivity.
  - reflexivity.
  - apply binary_normalize_not_nan.
Qed.

(** Binary64 addition is commutative, on all values. *)
Lemma add_comm (a b : double) : Double.add a b = Double.add b a.
Proof.
  destruct a as [sa|sa| |sa ma ea], b as [sb|sb| |sb mb eb]; simpl;
    try reflexivity; try (destruct sa, sb; reflexivity).
  rewrite (Z.min_comm eb ea).
  f_equal. apply Z.add_comm.
Qed.

(** [==] is reflexive on everything but NaN. *)
Lemma eqb_refl (x : double) :
  Double.is_nan x = false -> Double.eqb x x = true.
Proof.
  intros H. unfold Double.eqb, SFeqb.
  destruct x as [s|s| |s m e]; try discriminate H; simpl.
  - reflexivity.
  - destruct s; reflexivity.
  - rewrite Z.compare_refl.
    assert (Hm : Pos.compare_cont Eq m m = Eq) by apply Pos.compare_refl.
    destruct s; rewrite Hm; reflexivity.
Qed.

(** The decimal literals of the spec are the binary64 numbers used here. *)
Lemma literals :
  Double.of_literal 0%float = Double.zero /\
  Double.of_literal 2.5%float = Double.lit_2_5 /\
  Double.of_literal 3.5%float = Double.lit_3_5 /\
  Double.of_literal 6%float = Double.lit_6_0.
Proof. repeat split; vm_compute; reflexivity. Qed.

(** They are binary64 numbers, and so is the sum of the last example. *)
Lemma literals_are_float64 :
  forallb Double.is_float64
    [Double.zero; Double.lit_2_5; Double.lit_3_5; Double.lit_6_0;
     Double.add Double.lit_2_5 Double.lit_3_5] = true.
Proof. vm_compute. reflexivity. Qed.

End DoubleFacts.

(** ** The adapter's two operations *)

Section AdapterFacts.
Context `{U : Umbrella}.

Lemma sum_eq (this : Adapter.t) (w : SwiftWorld) (num1 num2 : double) :
  Adapter.sum num1 num2 (this, w) =
  (surfaced (fst (cxx_sum (Adapter._swiftPart this) num1 num2 w)),
   (this, snd (cxx_sum (Adapter._swiftPart this) num1 num2 w))).
Proof.
  unfold Adapter.sum, bind, Adapter.on_swiftPart.
  destruct (cxx_sum (Adapter._swiftPart this) num1 num2 w) as [[v|e] w'];
    reflexivity.
Qed.

Lemma getExternalMemorySize_eq (this : Adapter.t) (w : SwiftWorld) :
  Adapter.getExternalMemorySize (this, w) =
  (Returned (fst (cxx_getMemorySize (Adapter._swiftPart this) w)),
   (this, snd (cxx_getMemorySize (Adapter._swiftPart this) w))).
Proof.
  unfold Adapter.getExternalMemorySize, Adapter.on_swiftPart.
  destruct (cxx_getMemorySize (Adapter._swiftPart this) w); reflexivity.
Qed.

Lemma step_this (c : call) (this : Adapter.t) (w : SwiftWorld) :
  fst (snd (step c (this, w))) = this.
Proof.
  destruct c as [num1 num2|]; unfold step;
    cbn [HybridDynamicActivitiesSpec.sum
         HybridDynamicActivitiesSpec.getExternalMemorySize Adapter.override].
  - rewrite sum_eq. reflexivity.
  - rewrite getExternalMemorySize_eq. reflexivity.
Qed.

Lemma run_this (cs : list call) (this : Adapter.t) (w : SwiftWorld) :
  fst (snd (run cs (this, w))) = this.
Proof.
  revert this w.
  induction cs as [|c cs IH]; intros this w; [reflexivity|].
  cbn [run].
  pose proof (step_this c this w) as Hc.
  destruct (step c (this, w)) as [r [this' w']]. simpl in Hc. subst this'.
  specialize (IH this w').
  destruct (run cs (this, w')) as [rs [this'' w'']]. exact IH.
Qed.

(** Calling a member function that leaves [this] alone leaves the whole
    memory alone, whatever [this] points to. *)
Lemma invoke_memory {A} (p : positive)
    (f : Method exception_ptr Adapter.t SwiftWorld A)
    (m : Memory) (w : SwiftWorld) :
  (forall a w0, fst (snd (f (a, w0))) = a) ->
  fst (snd (invoke p f m w)) = m.
Proof.
  intros Hf. unfold invoke.
  destruct (adapters m !! p) as [a|] eqn:Hp; [|reflexivity].
  specialize (Hf a w).
  destruct (f (a, w)) as [o [a' w']]. simpl in *. subst a'.
  rewrite insert_id by exact Hp. destruct m; reflexivity.
Qed.

(** The caller's own instances are outside of what [invoke] reads. *)
Lemma invoke_assign {A} (this p : positive)
    (v : HybridDynamicActivitiesSpec_cxx)
    (f : Method exception_ptr Adapter.t SwiftWorld A)
    (m : Memory) (w : SwiftWorld) :
  invoke this f (assign p v m) w =
  let '(o, (m', w')) := invoke this f m w in (o, (assign p v m', w')).
Proof.
  unfold invoke, assign; simpl.
  destruct (adapters m !! this) as [a|]; [|reflexivity].
  destruct (f (a, w)) as [o [a' w']]. reflexivity.
Qed.

Lemma invoke_release {A} (this p : positive)
    (f : Method exception_ptr Adapter.t SwiftWorld A)
    (m : Memory) (w : SwiftWorld) :
  invoke this f (release p m) w =
  let '(o, (m', w')) := invoke this f m w in (o, (release p m', w')).
Proof.
  unfold invoke, release; simpl.
  destruct (adapters m !! this) as [a|]; [|reflexivity].
  destruct (f (a, w)) as [o [a' w']]. reflexivity.
Qed.

Lemma construct_live (m : Memory) (p : positive)
    (s : HybridDynamicActivitiesSpec_cxx) :
  cxx_objects m !! p = Some s ->
  construct p m =
  Some (fresh (dom (adapters m)),
        {| cxx_objects := cxx_objects m;
           adapters := <[fresh (dom (adapters m)) := Adapter.make s]>
                         (adapters m) |}).
Proof. intros H. unfold construct. rewrite H. reflexivity. Qed.

Lemma fresh_adapter (m : Memory) :
  adapters m !! fresh (dom (adapters m)) = None.
Proof. apply not_elem_of_dom, is_fresh. Qed.

End AdapterFacts.

(** C1.  [sum] calls the foreign [sum] once and surfaces what it gave: an
    error result is rethrown, the very same exception, and a value result is
    returned.  The adapter throws exactly when the foreign result has an
    error, and the foreign side is left as that one call left it (no
    retry). *)
Theorem sum_surfaces_foreign_result `{U : Umbrella}
    (this : Adapter.t) (w : SwiftWorld) (num1 num2 : double) :
  let result := cxx_sum (Adapter._swiftPart this) num1 num2 w in
  let call := Adapter.sum num1 num2 (this, w) in
  fst call = match fst result with
             | withValue v => Returned v
             | withError e => Thrown e
             end /\
  is_thrown (fst call) = hasError (fst result) /\
  snd (snd call) = snd result.
Proof.
  cbv zeta. rewrite sum_eq. cbn [fst snd].
  destruct (fst (cxx_sum (Adapter._swiftPart this) num1 num2 w));
    repeat split.
Qed.

(** On a foreign side that refuses a sum: the message comes out as thrown,
    and one call was recorded. *)
Example sum_rethrows_refusal :
  Adapter.sum (U := CheckedSide) Double.infinity Double.neg_infinity
    (checked_adapter, []) =
  (Thrown "sum is not finite"%string,
   (checked_adapter, [(Double.infinity, Double.neg_infinity)])).
Proof. reflexivity. Qed.

Example sum_returns_value :
  Adapter.sum (U := CheckedSide) Double.lit_2_5 Double.lit_3_5
    (checked_adapter, []) =
  (Returned Double.lit_6_0,
   (checked_adapter, [(Double.lit_2_5, Double.lit_3_5)])).
Proof. reflexivity. Qed.

(** C3.  [getExternalMemorySize] returns the value of the foreign
    [getMemorySize], as it is, and leaves the foreign side as that query
    left it. *)
Theorem getExternalMemorySize_forwards `{U : Umbrella}
    (this : Adapter.t) (w : SwiftWorld) :
  let query := cxx_getMemorySize (Adapter._swiftPart this) w in
  let call := Adapter.getExternalMemorySize (this, w) in
  fst call = Returned (fst query) /\ snd (snd call) = snd query.
Proof.
  cbv zeta. rewrite getExternalMemorySize_eq. split; reflexivity.
Qed.

(** C4.  [getExternalMemorySize] never throws and returns a non-negative
    size: on its own, and at every place of every sequence of calls of
    [sum] and [getExternalMemorySize], whatever the [sum]s before it did. *)
Theorem getExternalMemorySize_never_raises `{U : Umbrella}
    (cs : list call) (this : Adapter.t) (w : SwiftWorld) :
  (exists n : size_t,
     fst (Adapter.getExternalMemorySize (this, w)) = Returned n /\
     0 <= Z.of_N n) /\
  Forall2
    (fun c r =>
       match c with
       | call_getExternalMemorySize =>
           exists n : size_t, r = size_reply (Returned n) /\ 0 <= Z.of_N n
       | call_sum _ _ => True
       end)
    cs (fst (run cs (this, w))).
Proof.
  split.
  - rewrite getExternalMemorySize_eq.
    eexists; split; [reflexivity | apply N2Z.is_nonneg].
  - revert this w.
    induction cs as [|c cs IH]; intros this w; cbn [run].
    + constructor.
    + destruct (step c (this, w)) as [r [this' w']] eqn:Hs.
      specialize (IH this' w').
      destruct (run cs (this', w')) as [rs s'']. simpl in *.
      constructor; [|exact IH].
      destruct c as [num1 num2|]; [exact I|].
      unfold step in Hs.
      cbn [HybridDynamicActivitiesSpec.getExternalMemorySize
           Adapter.override] in Hs.
      rewrite getExternalMemorySize_eq in Hs.
      inversion Hs; subst.
      eexists; split; [reflexivity | apply N2Z.is_nonneg].
Qed.

Example memory_size_between_sums :
  fst (run (U := CheckedSide)
         [call_getExternalMemorySize;
          call_sum Double.infinity Double.neg_infinity;
          call_getExternalMemorySize;
          call_sum Double.zero Double.zero;
          call_getExternalMemorySize]
         (checked_adapter, [])) =
  [size_reply (U := CheckedSide) (Returned 0%N);
   sum_reply (U := CheckedSide) (Thrown "sum is not finite"%string);
   size_reply (U := CheckedSide) (Returned 1%N);
   sum_reply (U := CheckedSide) (Returned Double.zero);
   size_reply (U := CheckedSide) (Returned 2%N)].
Proof. reflexivity. Qed.

(** C7.  Neither operation writes to the adapter: after [sum], returned or
    thrown, after [getExternalMemorySize], and after any sequence of them,
    [this] is what it was, the stored handle included; called on an object
    in memory, they leave the memory as it was. *)
Theorem operations_leave_adapter_unchanged `{U : Umbrella}
    (this : Adapter.t) (w : SwiftWorld) (num1 num2 : double)
    (cs : list call) (p : positive) (m : Memory) :
  fst (snd (Adapter.sum num1 num2 (this, w))) = this /\
  fst (snd (Adapter.getExternalMemorySize (this, w))) = this /\
  fst (snd (run cs (this, w))) = this /\
  fst (snd (invoke p (Adapter.sum num1 num2) m w)) = m /\
  fst (snd (invoke p Adapter.getExternalMemorySize m w)) = m.
Proof.
  repeat split.
  - rewrite sum_eq. reflexivity.
  - rewrite getExternalMemorySize_eq. reflexivity.
  - apply run_this.
  - apply invoke_memory. intros a w0. rewrite sum_eq. reflexivity.
  - apply invoke_memory. intros a w0.
    rewrite getExternalMemorySize_eq. reflexivity.
Qed.

(** C10.  [sum] has no precondition: for all doubles, finite or not, the
    call is defined, the foreign [sum] receives the two arguments as they
    were given and in their order, and its result is surfaced. *)
Theorem sum_forwards_every_double :
  (forall (U : Umbrella) (this : Adapter.t) (w : SwiftWorld)
          (num1 num2 : double),
      Adapter.sum num1 num2 (this, w) =
      (surfaced (fst (cxx_sum (Adapter._swiftPart this) num1 num2 w)),
       (this, snd (cxx_sum (Adapter._swiftPart this) num1 num2 w))) /\
      fst (Adapter.sum num1 num2 (this, w)) <> Undefined) /\
  (forall (num1 num2 : double) (w : list (double * double)),
      snd (snd (Adapter.sum (U := CheckedSide) num1 num2
                  (checked_adapter, w))) = (num1, num2) :: w).
Proof.
  split.
  - intros U this w num1 num2. rewrite sum_eq. split; [reflexivity|].
    cbn [fst].
    destruct (fst (cxx_sum (Adapter._swiftPart this) num1 num2 w));
      discriminate.
  - intros num1 num2 w.
    exact (f_equal (fun x => snd (snd x))
             (sum_eq (U := CheckedSide) checked_adapter w num1 num2)).
Qed.

(** Non-finite arguments reach the foreign side like any others. *)
Example sum_forwards_nan_and_infinities :
  snd (snd (run (U := CheckedSide)
              [call_sum Double.nan Double.infinity;
               call_sum Double.neg_infinity Double.lit_2_5]
              (checked_adapter, []))) =
  [(Double.neg_infinity, Double.lit_2_5); (Double.nan, Double.infinity)].
Proof. reflexivity. Qed.

(** ** The adapter on the Swift implementation *)

Lemma swift_sum_eq (size : size_t) (a b : double) :
  Adapter.sum (U := SwiftImplementation) a b (swift_adapter size, tt) =
  (Returned (Double.add a b), (swift_adapter size, tt)).
Proof.
  exact (sum_eq (U := SwiftImplementation) (swift_adapter size) tt a b).
Qed.

(** C2.  On the Swift implementation, [sum(a, b)] of two finite doubles
    returns their binary64 sum [a + b]; the sum is a number, so it compares
    equal to [a + b] under [==]. *)
Theorem sum_is_ieee_addition (size : size_t) (a b : double) :
  Double.is_finite a = true -> Double.is_finite b = true ->
  exists r : double,
    Adapter.sum (U := SwiftImplementation) a b (swift_adapter size, tt) =
    (Returned r, (swift_adapter size, tt)) /\
    r = Double.add a b /\
    Double.eqb r (Double.add a b) = true.
Proof.
  intros Ha Hb. exists (Double.add a b).
  split; [apply swift_sum_eq|].
  split; [reflexivity|].
  apply eqb_refl, add_finite_not_nan; assumption.
Qed.

Lemma sum_is_ieee_addition_witness :
  exists r : double,
    Adapter.sum (U := SwiftImplementation)
      (Double.of_literal 1.5%float) (Double.of_literal 0.25%float)
      (swift_adapter 16%N, tt) =
    (Returned r, (swift_adapter 16%N, tt)) /\
    r = Double.add (Double.of_literal 1.5%float) (Double.of_literal 0.25%float) /\
    Double.eqb r
      (Double.add (Double.of_literal 1.5%float) (Double.of_literal 0.25%float))
    = true.
Proof.
  apply (sum_is_ieee_addition 16%N
           (Double.of_literal 1.5%float) (Double.of_literal 0.25%float));
    reflexivity.
Defined.

(** C5.  On the Swift implementation, [sum] is commutative on finite
    doubles: [sum(a, b)] and [sum(b, a)] both return, the same number, and
    the two compare equal under [==]. *)
Theorem sum_commutes (size : size_t) (a b : double) :
  Double.is_finite a = true -> Double.is_finite b = true ->
  exists x y : double,
    Adapter.sum (U := SwiftImplementation) a b (swift_adapter size, tt) =
    (Returned x, (swift_adapter size, tt)) /\
    Adapter.sum (U := SwiftImplementation) b a (swift_adapter size, tt) =
    (Returned y, (swift_adapter size, tt)) /\
    x = y /\
    Double.eqb x y = true.
Proof.
  intros Ha Hb. exists (Double.add a b), (Double.add b a).
  split; [apply swift_sum_eq|].
  split; [apply swift_sum_eq|].
  rewrite (add_comm b a).
  split; [reflexivity|].
  apply eqb_refl, add_finite_not_nan; assumption.
Qed.

Lemma sum_commutes_witness :
  exists x y : double,
    Adapter.sum (U := SwiftImplementation)
      (Double.of_literal 0.75%float) (Double.of_literal (-1024.5)%float)
      (swift_adapter 0%N, tt) =
    (Returned x, (swift_adapter 0%N, tt)) /\
    Adapter.sum (U := SwiftImplementation)
      (Double.of_literal (-1024.5)%float) (Double.of_literal 0.75%float)
      (swift_adapter 0%N, tt) =
    (Returned y, (swift_adapter 0%N, tt)) /\
    x = y /\
    Double.eqb x y = true.
Proof.
  apply (sum_commutes 0%N
           (Double.of_literal 0.75%float) (Double.of_literal (-1024.5)%float));
    reflexivity.
Defined.

(** C6.  On the Swift implementation, [sum(0.0, 0.0) == 0.0] and
    [sum(2.5, 3.5) == 6.0]: each call returns, and what it returns is that
    very number. *)
Theorem sum_of_spec_literals (size : size_t) :
  (exists r : double,
     Adapter.sum (U := SwiftImplementation)
       (Double.of_literal 0.0%float) (Double.of_literal 0.0%float)
       (swift_adapter size, tt) = (Returned r, (swift_adapter size, tt)) /\
     r = Double.of_literal 0.0%float /\
     Double.eqb r (Double.of_literal 0.0%float) = true) /\
  (exists r : double,
     Adapter.sum (U := SwiftImplementation)
       (Double.of_literal 2.5%float) (Double.of_literal 3.5%float)
       (swift_adapter size, tt) = (Returned r, (swift_adapter size, tt)) /\
     r = Double.of_literal 6.0%float /\
     Double.eqb r (Double.of_literal 6.0%float) = true).
Proof.
  split; eexists; (split; [apply swift_sum_eq|]); split; vm_compute; reflexivity.
Qed.

(** ** Lifetime of the foreign instance *)

(** C8.  Constructing an adapter from a live instance of the foreign class
    succeeds and creates one more instance, the adapter's own [_swiftPart],
    a copy of the instance supplied; the caller's instances are as they
    were.  Destroying the adapter destroys that instance with it: the memory
    is back to what it was before the construction, with as many live
    instances as before. *)
Theorem adapter_owns_one_instance `{U : Umbrella}
    (m : Memory) (swiftPart : positive) (s : HybridDynamicActivitiesSpec_cxx) :
  cxx_objects m !! swiftPart = Some s ->
  exists (this : positive) (m' : Memory),
    construct swiftPart m = Some (this, m') /\
    adapters m !! this = None /\
    adapters m' !! this = Some (Adapter.make s) /\
    Adapter._swiftPart (Adapter.make s) = s /\
    cxx_objects m' = cxx_objects m /\
    live_instances m' = S (live_instances m) /\
    destroy this m' = Some m /\
    (forall m'', destroy this m' = Some m'' ->
                 live_instances m'' = live_instances m /\
                 adapters m'' !! this = None).
Proof.
  intros Hs.
  pose proof (fresh_adapter m) as Hfresh.
  eexists _, _. split; [apply (construct_live m swiftPart s Hs)|].
  set (this := fresh (dom (adapters m))) in *.
  assert (Hdestroy :
    destroy this
      {| cxx_objects := cxx_objects m;
         adapters := <[this := Adapter.make s]> (adapters m) |} = Some m).
  { unfold destroy; cbn [adapters cxx_objects].
    rewrite lookup_insert_eq, delete_insert_id by exact Hfresh.
    destruct m; reflexivity. }
  split; [exact Hfresh|].
  split; [apply lookup_insert_eq|].
  split; [reflexivity|].
  split; [reflexivity|].
  split.
  { unfold live_instances; cbn [adapters cxx_objects].
    rewrite map_size_insert_None by exact Hfresh. lia. }
  split; [exact Hdestroy|].
  intros m'' Hm''. rewrite Hdestroy in Hm''. inversion Hm''; subst m''.
  split; [reflexivity | exact Hfresh].
Qed.

Lemma adapter_owns_one_instance_witness :
  exists (this : positive) (m' : Memory (U := SwiftImplementation)),
    construct 5%positive one_instance = Some (this, m') /\
    adapters one_instance !! this = None /\
    adapters m' !! this = Some (swift_adapter 16%N) /\
    Adapter._swiftPart (swift_adapter 16%N) = 16%N /\
    cxx_objects m' = cxx_objects one_instance /\
    live_instances m' = S (live_instances one_instance) /\
    destroy this m' = Some one_instance /\
    (forall m'', destroy this m' = Some m'' ->
                 live_instances m'' = live_instances one_instance /\
                 adapters m'' !! this = None).
Proof.
  apply (adapter_owns_one_instance (U := SwiftImplementation)
           one_instance 5%positive 16%N).
  reflexivity.
Defined.

(** C9.  The adapter built from the instance at [swiftPart] holds its own
    copy of it.  No sequence of [sum] and [getExternalMemorySize] calls
    reassigns it; [sum], [getExternalMemorySize] and [getSwiftPart] all act
    on that copy; and what the caller does afterwards to its original,
    assigning to it or destroying it, changes nothing of what a member
    function called on the adapter does. *)
Theorem adapter_keeps_its_own_copy `{U : Umbrella}
    (m : Memory) (swiftPart : positive) (s : HybridDynamicActivitiesSpec_cxx) :
  cxx_objects m !! swiftPart = Some s ->
  exists (this : positive) (m' : Memory) (a : Adapter.t),
    construct swiftPart m = Some (this, m') /\
    adapters m' !! this = Some a /\
    Adapter._swiftPart a = s /\
    (forall cs w, Adapter._swiftPart (fst (snd (run cs (a, w)))) = s) /\
    Adapter.ref_get Adapter.getSwiftPart a = s /\
    (forall num1 num2 w,
        Adapter.sum num1 num2 (a, w) =
        (surfaced (fst (cxx_sum s num1 num2 w)),
         (a, snd (cxx_sum s num1 num2 w)))) /\
    (forall w,
        Adapter.getExternalMemorySize (a, w) =
        (Returned (fst (cxx_getMemorySize s w)),
         (a, snd (cxx_getMemorySize s w)))) /\
    (forall A (f : Method exception_ptr Adapter.t SwiftWorld A) v w,
        invoke this f (assign swiftPart v m') w =
        let '(o, (m'', w')) := invoke this f m' w in
        (o, (assign swiftPart v m'', w'))) /\
    (forall A (f : Method exception_ptr Adapter.t SwiftWorld A) w,
        invoke this f (release swiftPart m') w =
        let '(o, (m'', w')) := invoke this f m' w in
        (o, (release swiftPart m'', w'))).
Proof.
  intros Hs.
  eexists _, _, (Adapter.make s).
  split; [apply (construct_live m swiftPart s Hs)|].
  split; [apply lookup_insert_eq|].
  split; [reflexivity|].
  split; [intros cs w; rewrite run_this; reflexivity|].
  split; [reflexivity|].
  split; [intros num1 num2 w; apply sum_eq|].
  split; [intros w; apply getExternalMemorySize_eq|].
  split.
  - intros A f v w. apply invoke_assign.
  - intros A f w. apply invoke_release.
Qed.

Lemma adapter_keeps_its_own_copy_witness :
  exists (this : positive) (m' : Memory (U := SwiftImplementation))
         (a : Adapter.t (U := SwiftImplementation)),
    construct 5%positive one_instance = Some (this, m') /\
    adapters m' !! this = Some a /\
    Adapter._swiftPart a = 16%N /\
    (forall cs w, Adapter._swiftPart (fst (snd (run cs (a, w)))) = 16%N) /\
    Adapter.ref_get Adapter.getSwiftPart a = 16%N /\
    (forall num1 num2 w,
        Adapter.sum num1 num2 (a, w) =
        (surfaced (fst (cxx_sum (Umbrella := SwiftImplementation)
                          16%N num1 num2 w)),
         (a, snd (cxx_sum (Umbrella := SwiftImplementation)
                    16%N num1 num2 w)))) /\
    (forall w,
        Adapter.getExternalMemorySize (a, w) =
        (Returned (fst (cxx_getMemorySize (Umbrella := SwiftImplementation)
                          16%N w)),
         (a, snd (cxx_getMemorySize (Umbrella := SwiftImplementation)
                    16%N w)))) /\
    (forall A (f : Method exception_ptr Adapter.t SwiftWorld A) v w,
        invoke this f (assign 5%positive v m') w =
        let '(o, (m'', w')) := invoke this f m' w in
        (o, (assign 5%positive v m'', w'))) /\
    (forall A (f : Method exception_ptr Adapter.t SwiftWorld A) w,
        invoke this f (release 5%positive m') w =
        let '(o, (m'', w')) := invoke this f m' w in
        (o, (release 5%positive m'', w'))).
Proof.
  apply (adapter_keeps_its_own_copy (U := SwiftImplementation)
           one_instance 5%positive 16%N).
  reflexivity.
Defined.

(** The handle can be reassigned after construction.  [getSwiftPart]
    returns a non-const reference to [_swiftPart]: on the adapter built from
    the instance at address 5, which reports 16, the assignment
    [getSwiftPart() = v], with [v] an instance that reports 99, replaces the
    stored handle, and [getExternalMemorySize] then reports 99. *)
Lemma getSwiftPart_lets_the_handle_be_reassigned :
  exists (this : positive) (m' m'' : Memory (U := SwiftImplementation))
         (a a' : Adapter.t (U := SwiftImplementation)),
    construct 5%positive one_instance = Some (this, m') /\
    adapters m' !! this = Some a /\
    Adapter._swiftPart a = 16%N /\
    fst (invoke this Adapter.getExternalMemorySize m' tt) = Returned 16%N /\
    execs [assign_swiftPart (U := SwiftImplementation) this 99%N] (m', tt)
    = Some (m'', tt) /\
    adapters m'' !! this = Some a' /\
    Adapter._swiftPart a' = 99%N /\
    Adapter._swiftPart a' <> Adapter._swiftPart a /\
    fst (invoke this Adapter.getExternalMemorySize m'' tt) = Returned 99%N.
Proof.
  exists 1%positive, one_adapter,
    {| cxx_objects := {[ 5%positive := 16%N ]};
       adapters := {[ 1%positive :=
                        Adapter.make (U := SwiftImplementation) 99%N ]} |},
    (swift_adapter 16%N), (Adapter.make (U := SwiftImplementation) 99%N).
  repeat split; try reflexivity.
  cbn. discriminate.
Qed.

(** The caller replaces its original by an instance that reports another
    size, then destroys it: the adapter still reports the size of the copy
    it took. *)
Example adapter_outlives_original :
  match construct 5%positive one_instance with
  | Some (this, m') =>
      fst (invoke (U := SwiftImplementation) this
             Adapter.getExternalMemorySize
             (release 5%positive
                (assign (U := SwiftImplementation) 5%positive 99%N m')) tt)
  | None => Undefined
  end = Returned 16%N.
Proof. vm_compute. reflexivity. Qed.

(** The reference [getSwiftPart] hands out is the member itself: reading
    through it gives [_swiftPart], and an assignment through it, which no
    member function of the adapter makes, would land in [_swiftPart]. *)
Lemma getSwiftPart_is_the_member `{U : Umbrella}
    (this : Adapter.t) (v : HybridDynamicActivitiesSpec_cxx) :
  Adapter.ref_get Adapter.getSwiftPart this = Adapter._swiftPart this /\
  Adapter._swiftPart (Adapter.ref_set Adapter.getSwiftPart v this) = v /\
  Adapter.name (Adapter.ref_set Adapter.getSwiftPart v this) =
  Adapter.name this.
Proof. repeat split. Qed.

(** The adapter is named by the spec's tag. *)
Lemma make_name `{U : Umbrella} (s : HybridDynamicActivitiesSpec_cxx) :
  Adapter.name (Adapter.make s) = "DynamicActivities"%string.
Proof. reflexivity. Qed.

(** ** Programs: forwarding, aliasing and accounting *)
Section ProgramFacts.
Context `{U : Umbrella}.

Lemma step_direct (c : call) (this : Adapter.t) (w : SwiftWorld) :
  step c (this, w) =
  (fst (direct_step (Adapter._swiftPart this) c w),
   (this, snd (direct_step (Adapter._swiftPart this) c w))).
Proof.
  destruct c as [num1 num2|]; unfold step, direct_step;
    cbn [HybridDynamicActivitiesSpec.sum
         HybridDynamicActivitiesSpec.getExternalMemorySize Adapter.override].
  - rewrite sum_eq.
    destruct (cxx_sum (Adapter._swiftPart this) num1 num2 w); reflexivity.
  - rewrite getExternalMemorySize_eq.
    destruct (cxx_getMemorySize (Adapter._swiftPart this) w); reflexivity.
Qed.

Lemma invoke_live {A} (this : positive) (a : Adapter.t)
    (f : Method exception_ptr Adapter.t SwiftWorld A)
    (m : Memory) (w : SwiftWorld) :
  adapters m !! this = Some a ->
  fst (snd (f (a, w))) = a ->
  invoke this f m w = (fst (f (a, w)), (m, snd (snd (f (a, w))))).
Proof.
  intros Ha Hf. unfold invoke. rewrite Ha.
  destruct (f (a, w)) as [o [a' w']]. simpl in *. subst a'.
  rewrite insert_id by exact Ha. destruct m; reflexivity.
Qed.

Lemma call_adapter_memory (this : positive) (c : call)
    (m m' : Memory) (w w' : SwiftWorld) :
  call_adapter this c m w = Some (m', w') -> m' = m.
Proof.
  unfold call_adapter. intros H.
  destruct c as [num1 num2|].
  - assert (Hm : fst (snd (invoke this (Adapter.sum num1 num2) m w)) = m).
    { apply invoke_memory. intros a w0. rewrite sum_eq. reflexivity. }
    destruct (invoke this (Adapter.sum num1 num2) m w) as [o [m1 w1]].
    cbn [fst snd] in Hm. subst m1.
    destruct o; inversion H; reflexivity.
  - assert (Hm : fst (snd (invoke this Adapter.getExternalMemorySize m w))
                 = m).
    { apply invoke_memory. intros a w0.
      rewrite getExternalMemorySize_eq. reflexivity. }
    destruct (invoke this Adapter.getExternalMemorySize m w) as [o [m1 w1]].
    cbn [fst snd] in Hm. subst m1.
    destruct o; inversion H; reflexivity.
Qed.

(** The effect of one step on the adapters' names. *)
Lemma exec_well_named (a : action) (s s' : Memory * SwiftWorld) :
  exec a s = Some s' -> well_named (fst s) -> well_named (fst s').
Proof.
  destruct s as [m w], s' as [m' w']. cbn [fst].
  intros He Hm this b Hb.
  destruct a as [v|p v|p|swiftPart|q|q c|q v]; cbn [exec] in He.
  - inversion He; subst. exact (Hm this b Hb).
  - destruct (cxx_objects m !! p); inversion He; subst. exact (Hm this b Hb).
  - destruct (cxx_objects m !! p); inversion He; subst. exact (Hm this b Hb).
  - unfold construct in He.
    destruct (cxx_objects m !! swiftPart) as [s0|]; inversion He; subst.
    cbn [adapters] in Hb.
    destruct (decide (this = fresh (dom (adapters m)))) as [->|Hne].
    + rewrite lookup_insert_eq in Hb. inversion Hb; subst. reflexivity.
    + rewrite lookup_insert_ne in Hb by congruence. exact (Hm this b Hb).
  - unfold destroy in He.
    destruct (adapters m !! q); inversion He; subst.
    cbn [adapters] in Hb.
    apply lookup_delete_Some in Hb as [_ Hb]. exact (Hm this b Hb).
  - apply call_adapter_memory in He. subst m'. exact (Hm this b Hb).
  - unfold write_swiftPart in He.
    destruct (adapters m !! q) as [a0|] eqn:Hq; inversion He; subst.
    cbn [adapters] in Hb.
    destruct (decide (this = q)) as [->|Hne].
    + rewrite lookup_insert_eq in Hb. inversion Hb; subst.
      exact (Hm q a0 Hq).
    + rewrite lookup_insert_ne in Hb by congruence. exact (Hm this b Hb).
Qed.

End ProgramFacts.

Section ProgramInvariants.
Context `{U : Umbrella}.

Lemma execs_well_named (acts : list action) (s s' : Memory * SwiftWorld) :
  execs acts s = Some s' -> well_named (fst s) -> well_named (fst s').
Proof.
  revert s. induction acts as [|a acts IH]; intros s He Hs; cbn [execs] in He.
  - inversion He; subst. exact Hs.
  - destruct (exec a s) as [s1|] eqn:Ha; [|discriminate].
    apply (IH s1 He). exact (exec_well_named a s s1 Ha Hs).
Qed.

End ProgramInvariants.

(** X1.  The adapter is a transparent proxy.  For every sequence of [sum]
    and [getExternalMemorySize] calls, the replies and the state the foreign
    side ends in are those of the same calls made on the stored foreign
    instance itself, in the same order, each made once; the adapter is left
    as it was. *)
Theorem adapter_is_transparent `{U : Umbrella}
    (cs : list call) (this : Adapter.t) (w : SwiftWorld) :
  run cs (this, w) =
  (fst (direct_run (Adapter._swiftPart this) cs w),
   (this, snd (direct_run (Adapter._swiftPart this) cs w))).
Proof.
  revert w. induction cs as [|c cs IH]; intros w; cbn [run direct_run].
  - reflexivity.
  - rewrite step_direct.
    destruct (direct_step (Adapter._swiftPart this) c w) as [r w'].
    cbn [fst snd]. rewrite IH.
    destruct (direct_run (Adapter._swiftPart this) cs w') as [rs w''].
    reflexivity.
Qed.

(** A [sum] that threw does not disturb the calls after it. *)
Example calls_after_a_throw :
  fst (run (U := CheckedSide)
         [call_sum Double.nan Double.zero;
          call_sum Double.lit_2_5 Double.lit_3_5;
          call_getExternalMemorySize]
         (checked_adapter, [])) =
  [sum_reply (U := CheckedSide) (Thrown "sum is not finite"%string);
   sum_reply (U := CheckedSide) (Returned Double.lit_6_0);
   size_reply (U := CheckedSide) (Returned 2%N)].
Proof. reflexivity. Qed.

(** X2.  [getSwiftPart] returns a reference to the member itself, not to a
    copy of it.  After an assignment through it on a live adapter, [sum] and
    [getExternalMemorySize] on that adapter forward to the instance
    assigned; the adapter keeps its name, no instance is created or
    destroyed, and the other adapters and the callers' instances are as they
    were. *)
Theorem assignment_through_getSwiftPart `{U : Umbrella}
    (m : Memory) (this : positive) (a : Adapter.t)
    (v : HybridDynamicActivitiesSpec_cxx) :
  adapters m !! this = Some a ->
  exists (m' : Memory) (a' : Adapter.t),
    write_swiftPart this v m = Some m' /\
    adapters m' !! this = Some a' /\
    Adapter.ref_get Adapter.getSwiftPart a' = v /\
    Adapter.name a' = Adapter.name a /\
    (forall num1 num2 w,
        invoke this (Adapter.sum num1 num2) m' w =
        (surfaced (fst (cxx_sum v num1 num2 w)),
         (m', snd (cxx_sum v num1 num2 w)))) /\
    (forall w,
        invoke this Adapter.getExternalMemorySize m' w =
        (Returned (fst (cxx_getMemorySize v w)),
         (m', snd (cxx_getMemorySize v w)))) /\
    (forall other, other <> this ->
                   adapters m' !! other = adapters m !! other) /\
    cxx_objects m' = cxx_objects m /\
    live_instances m' = live_instances m.
Proof.
  intros Ha. unfold write_swiftPart. rewrite Ha.
  set (a' := Adapter.ref_set Adapter.getSwiftPart v a).
  set (m' := {| cxx_objects := cxx_objects m;
                adapters := <[this := a']> (adapters m) |}).
  assert (Ha' : adapters m' !! this = Some a') by apply lookup_insert_eq.
  exists m', a'.
  split; [reflexivity|].
  split; [exact Ha'|].
  split; [reflexivity|].
  split; [reflexivity|].
  split.
  { intros num1 num2 w.
    rewrite (invoke_live this a' _ m' w Ha'); rewrite sum_eq; reflexivity. }
  split.
  { intros w.
    rewrite (invoke_live this a' _ m' w Ha');
      rewrite getExternalMemorySize_eq; reflexivity. }
  split.
  { intros other Hne. subst m'. cbn [adapters].
    rewrite lookup_insert_ne by congruence. reflexivity. }
  split; [reflexivity|].
  unfold live_instances. subst m'. cbn [cxx_objects adapters].
  rewrite map_size_insert_Some by eauto. reflexivity.
Qed.

Lemma assignment_through_getSwiftPart_witness :
  exists (m' : Memory (U := SwiftImplementation))
         (a' : Adapter.t (U := SwiftImplementation)),
    write_swiftPart (U := SwiftImplementation) 1%positive 99%N one_adapter
    = Some m' /\
    adapters m' !! 1%positive = Some a' /\
    Adapter.ref_get Adapter.getSwiftPart a' = 99%N /\
    Adapter.name a' = Adapter.name (swift_adapter 16%N) /\
    (forall num1 num2 w,
        invoke 1%positive (Adapter.sum num1 num2) m' w =
        (surfaced (fst (cxx_sum (Umbrella := SwiftImplementation)
                          99%N num1 num2 w)),
         (m', snd (cxx_sum (Umbrella := SwiftImplementation)
                     99%N num1 num2 w)))) /\
    (forall w,
        invoke 1%positive Adapter.getExternalMemorySize m' w =
        (Returned (fst (cxx_getMemorySize (Umbrella := SwiftImplementation)
                          99%N w)),
         (m', snd (cxx_getMemorySize (Umbrella := SwiftImplementation)
                     99%N w)))) /\
    (forall other, other <> 1%positive ->
                   adapters m' !! other = adapters one_adapter !! other) /\
    cxx_objects m' = cxx_objects one_adapter /\
    live_instances m' = live_instances one_adapter.
Proof.
  apply (assignment_through_getSwiftPart (U := SwiftImplementation)
           one_adapter 1%positive (swift_adapter 16%N) 99%N).
  reflexivity.
Defined.

(** X4.  Every adapter bears the tag of the spec, [DynamicActivities], for
    as long as it lives: in the memory any program ends in, whatever
    instances and adapters it created and destroyed, whatever it called on
    them and assigned through [getSwiftPart], the name of every adapter is
    the tag. *)
Theorem adapters_bear_the_tag `{U : Umbrella}
    (acts : list action) (w : SwiftWorld) :
  match execs acts (no_objects, w) with
  | Some (m, _) =>
      forall this a, adapters m !! this = Some a ->
                     Adapter.name a = "DynamicActivities"%string
  | None => True
  end.
Proof.
  destruct (execs acts (no_objects, w)) as [[m w']|] eqn:He; [|exact I].
  apply (execs_well_named acts _ _ He).
  intros this a Ha. cbn in Ha. rewrite lookup_empty in Ha. discriminate.
Qed.

(** A program that runs: it creates an instance, builds two adapters from
    it, calls them, assigns through [getSwiftPart], and destroys one
    adapter and the original.  One adapter is left, with its instance. *)
Example a_program_runs :
  match execs (U := CheckedSide)
          [new_instance (U := CheckedSide) tt;
           new_adapter 1%positive;
           new_adapter 1%positive;
           call_on 1%positive (call_sum Double.infinity Double.neg_infinity);
           call_on 2%positive call_getExternalMemorySize;
           assign_swiftPart (U := CheckedSide) 2%positive tt;
           delete_adapter 1%positive;
           release_instance 1%positive]
          (no_objects, []) with
  | Some (m, w) =>
      (live_instances m, map_to_list (adapters m), w)
  | None => (0%nat, [], [])
  end =
  (1%nat, [(2%positive, checked_adapter)],
   [(Double.infinity, Double.neg_infinity)]).
Proof. reflexivity. Qed.
